(** * A shallow embedding of [ds9SAMP/launcher.py] (class [DS9])

    The Python module supervises a ds9 viewer spawned as a child process,
    talks to it over a private SAMP hub and tears everything down from
    several triggers.  This file embeds:
    - the module configuration from the environment (lines 17-18);
    - the hub endpoint naming of [DS9.__init__] (lines 57-61);
    - the ds9 command line and its [shlex.split] (lines 68-69);
    - the object state of a [DS9] instance and its environment, with the
      methods [exit], [set], [get], [alive], [__watch_thread],
      [__get_samp_clientId] and the constructor, in an exception/state
      monad.

    Python strings are sequences of code points: they are modelled as
    [list Z].  Debug printing ([if self.debug: print(...)]) is not
    modelled. *)

From Stdlib Require Import ZArith List String Ascii Bool Lia.
Import ListNotations.
Open Scope Z_scope.

(* ------------------------------------------------------------------ *)
(** ** Python strings *)

Definition str := list Z.

(** A Rocq (ASCII) string literal as a Python [str]. *)
Definition lit (s : string) : str :=
  map (fun a => Z.of_nat (nat_of_ascii a)) (list_ascii_of_string s).

Fixpoint str_eqb (a b : str) : bool :=
  match a, b with
  | [], [] => true
  | x :: a', y :: b' => (x =? y) && str_eqb a' b'
  | _, _ => false
  end.

(** The code point of a decimal digit [0 <= d <= 9]. *)
Definition digit (d : Z) : Z := 48 + d.

(** [f"{n:0kd}"] for [0 <= n < 10^k]: the [k] low decimal digits of [n]. *)
Fixpoint zero_padded (k : nat) (n : Z) : str :=
  match k with
  | O => []
  | S k' => zero_padded k' (n / 10) ++ [digit (n mod 10)]
  end.

(** [str(n)] for a natural number [n], digits of [n] with no padding. *)
Fixpoint nat_digits (fuel : nat) (n : Z) : str :=
  match fuel with
  | O => []
  | S f => if n <? 10 then [digit n] else nat_digits f (n / 10) ++ [digit (n mod 10)]
  end.

(** [f"{n}"] for a Python [int]. *)
Definition str_of_Z (n : Z) : str :=
  if n <? 0 then 45 :: nat_digits (Z.to_nat (Z.log2 (- n) + 1)) (- n)
  else nat_digits (Z.to_nat (Z.log2 n + 1)) n.

(* ------------------------------------------------------------------ *)
(** ** HubEndpointNamer: [DS9.__init__], lines 57-61 *)

(** Membership in the character class of the raw pattern
    [r'[^A-Za-z0-9\\.]'].  In a raw string [\\] is two backslashes, which
    the regex engine reads as one escaped backslash: the class holds
    [A-Z], [a-z], [0-9], the backslash (92) and the dot (46). *)
Definition in_class (c : Z) : bool :=
  ((65 <=? c) && (c <=? 90)) || ((97 <=? c) && (c <=? 122))
  || ((48 <=? c) && (c <=? 57)) || (c =? 92) || (c =? 46).

(** [re.sub(r'[^A-Za-z0-9\\.]', '_', s)]: every code point outside the
    class becomes [_] (95). *)
Definition sanitize (s : str) : str :=
  map (fun c => if in_class c then c else 95) s.

(** [f"{title}_utc{tnow.strftime('%Y%m%dT%H%M%S')}.{tnow.microsecond:06d}_pid{self.__pid}"];
    [stamp] is the [strftime] text of the UTC second. *)
Definition samp_hub_raw_name (title stamp : str) (usec pid : Z) : str :=
  title ++ lit "_utc" ++ stamp ++ lit "." ++ zero_padded 6 usec
  ++ lit "_pid" ++ str_of_Z pid.

(** [samp_hub_name = re.sub(...)] (line 60). *)
Definition samp_hub_name (title stamp : str) (usec pid : Z) : str :=
  sanitize (samp_hub_raw_name title stamp usec pid).

(** [self.__samp_hub_file = f"{SAMP_HUB_PATH}/{samp_hub_name}.samp"]. *)
Definition samp_hub_file (hub_path title stamp : str) (usec pid : Z) : str :=
  hub_path ++ lit "/" ++ samp_hub_name title stamp usec pid ++ lit ".samp".

(* ------------------------------------------------------------------ *)
(** ** Exceptions *)

(** The exceptions the embedded code can raise or see.  [is_Exception]
    separates subclasses of [Exception] from the [BaseException]-only
    ones ([KeyboardInterrupt], [SystemExit]), which [except Exception]
    does not catch. *)
Inductive exn : Type :=
| AttributeError                (* attribute read before it was assigned *)
| RuntimeError (msg : str)
| KeyError (key : str)
| SAMPHubError                  (* astropy.samp: hub not (yet) available *)
| SAMPProxyError (msg : str)    (* astropy.samp: call failed or timed out *)
| OSError (msg : str)           (* includes PermissionError, FileNotFoundError *)
| TypeError (msg : str)
| UserError (name : str)        (* any other Exception, e.g. raised by a callback *)
| KeyboardInterrupt
| SystemExit.

Definition is_Exception (e : exn) : bool :=
  match e with
  | KeyboardInterrupt | SystemExit => false
  | _ => true
  end.

(* ------------------------------------------------------------------ *)
(** ** Observable events *)

Inductive event : Type :=
| EvCall (recipient : option str) (mtype timeout cmd : str) (locked : bool)
    (* [ecall_and_wait] issued; [locked] is the state of [self.__lock] *)
| EvReply (mtype cmd : str)       (* its response arrived *)
| EvNotify (recipient : option str) (mtype : str) (locked : bool)
    (* [enotify] issued *)
| EvJoin                           (* [self.__watcher.join(timeout=1)] *)
| EvKill                           (* [self.__process.kill()] signalled *)
| EvUnlink (path : str)            (* [Path(...).unlink(missing_ok=True)] *)
| EvCallback                       (* [self.exit_callback()] entered *)
| EvSigterm (pid : Z)              (* [os.kill(pid, SIGTERM)] *)
| EvSpawn (title : str)            (* [subprocess.Popen(...)] *)
| EvConnect                        (* [self.__samp.connect()] attempted *)
| EvSleep (secs : Z)               (* [time.sleep(secs)] *)
| EvThreadStart.                   (* [self.__watcher.start()] *)

(* ------------------------------------------------------------------ *)
(** ** The state of a [DS9] object and of its environment *)

(** An attribute that is read before [__init__] assigned it raises
    [AttributeError]; such attributes are [option]s, [None] meaning
    "not assigned yet".

    [w_hub] is the behaviour of the hub and of the peer: given the call
    log (whose last event is the call being answered), it answers with
    a payload or an exception.  [w_callback] is [self.exit_callback]:
    [None] for Python [None], [Some r] for a callable that raises [e]
    when [r = Some e] and returns otherwise. *)
Record World : Type := mkWorld {
  w_evtexit : option bool;          (* self.__evtexit, and its flag *)
  w_locked : bool;                  (* self.__lock is held *)
  w_watcher : option bool;          (* self.__watcher, and whether started *)
  w_process : option bool;          (* self.__process, and whether running *)
  w_samp : bool;                    (* self.__samp assigned *)
  w_clientId : option (option str); (* self.__samp_clientId *)
  w_hub_file : option str;          (* self.__samp_hub_file *)
  w_files : list str;               (* files on disk *)
  w_callback : option (option exn); (* self.exit_callback *)
  w_kill_on_exit : bool;            (* self.kill_on_exit *)
  w_pid : Z;                        (* os.getpid() = self.__pid *)
  w_now : Z;                        (* time.time() *)
  w_unlink_err : option exn;        (* unlink failure other than a missing file *)
  w_hub : list event -> exn + str;  (* hub and peer replies *)
  w_log : list event                (* what was observably done, oldest first *)
}.

Definition set_evtexit v w := mkWorld v (w_locked w) (w_watcher w) (w_process w) (w_samp w) (w_clientId w) (w_hub_file w) (w_files w) (w_callback w) (w_kill_on_exit w) (w_pid w) (w_now w) (w_unlink_err w) (w_hub w) (w_log w).
Definition set_locked v w := mkWorld (w_evtexit w) v (w_watcher w) (w_process w) (w_samp w) (w_clientId w) (w_hub_file w) (w_files w) (w_callback w) (w_kill_on_exit w) (w_pid w) (w_now w) (w_unlink_err w) (w_hub w) (w_log w).
Definition set_watcher v w := mkWorld (w_evtexit w) (w_locked w) v (w_process w) (w_samp w) (w_clientId w) (w_hub_file w) (w_files w) (w_callback w) (w_kill_on_exit w) (w_pid w) (w_now w) (w_unlink_err w) (w_hub w) (w_log w).
Definition set_process v w := mkWorld (w_evtexit w) (w_locked w) (w_watcher w) v (w_samp w) (w_clientId w) (w_hub_file w) (w_files w) (w_callback w) (w_kill_on_exit w) (w_pid w) (w_now w) (w_unlink_err w) (w_hub w) (w_log w).
Definition set_samp v w := mkWorld (w_evtexit w) (w_locked w) (w_watcher w) (w_process w) v (w_clientId w) (w_hub_file w) (w_files w) (w_callback w) (w_kill_on_exit w) (w_pid w) (w_now w) (w_unlink_err w) (w_hub w) (w_log w).
Definition set_clientId v w := mkWorld (w_evtexit w) (w_locked w) (w_watcher w) (w_process w) (w_samp w) v (w_hub_file w) (w_files w) (w_callback w) (w_kill_on_exit w) (w_pid w) (w_now w) (w_unlink_err w) (w_hub w) (w_log w).
Definition set_hub_file v w := mkWorld (w_evtexit w) (w_locked w) (w_watcher w) (w_process w) (w_samp w) (w_clientId w) v (w_files w) (w_callback w) (w_kill_on_exit w) (w_pid w) (w_now w) (w_unlink_err w) (w_hub w) (w_log w).
Definition set_files v w := mkWorld (w_evtexit w) (w_locked w) (w_watcher w) (w_process w) (w_samp w) (w_clientId w) (w_hub_file w) v (w_callback w) (w_kill_on_exit w) (w_pid w) (w_now w) (w_unlink_err w) (w_hub w) (w_log w).
Definition set_config cb k w := mkWorld (w_evtexit w) (w_locked w) (w_watcher w) (w_process w) (w_samp w) (w_clientId w) (w_hub_file w) (w_files w) cb k (w_pid w) (w_now w) (w_unlink_err w) (w_hub w) (w_log w).
Definition set_now v w := mkWorld (w_evtexit w) (w_locked w) (w_watcher w) (w_process w) (w_samp w) (w_clientId w) (w_hub_file w) (w_files w) (w_callback w) (w_kill_on_exit w) (w_pid w) v (w_unlink_err w) (w_hub w) (w_log w).
Definition set_log v w := mkWorld (w_evtexit w) (w_locked w) (w_watcher w) (w_process w) (w_samp w) (w_clientId w) (w_hub_file w) (w_files w) (w_callback w) (w_kill_on_exit w) (w_pid w) (w_now w) (w_unlink_err w) (w_hub w) v.

(* ------------------------------------------------------------------ *)
(** ** An exception/state monad *)

(** [Stuck] is a run that does not return: acquiring a lock another
    thread holds, or a retry loop whose scripted environment ran out. *)
Inductive outcome (A : Type) : Type :=
| Ret (a : A)
| Raise (e : exn)
| Stuck.
Arguments Ret {A} a.
Arguments Raise {A} e.
Arguments Stuck {A}.

Definition M (A : Type) : Type := World -> outcome A * World.

Definition ret {A} (a : A) : M A := fun w => (Ret a, w).
Definition raise {A} (e : exn) : M A := fun w => (Raise e, w).
Definition stuck {A} : M A := fun w => (Stuck, w).

Definition bind {A B} (m : M A) (k : A -> M B) : M B :=
  fun w =>
    match m w with
    | (Ret a, w') => k a w'
    | (Raise e, w') => (Raise e, w')
    | (Stuck, w') => (Stuck, w')
    end.

Notation "x <- m ;; k" := (bind m (fun x => k))
  (at level 61, m at next level, right associativity).
Notation "m ;; k" := (bind m (fun _ : unit => k))
  (at level 61, right associativity).

Definition get_world : M World := fun w => (Ret w, w).
Definition modify (f : World -> World) : M unit := fun w => (Ret tt, f w).
Definition emit (e : event) : M unit := modify (fun w => set_log (w_log w ++ [e]) w).

(** [try: m / except: pass] (a bare [except] catches everything). *)
Definition try_pass (m : M unit) : M unit :=
  fun w =>
    match m w with
    | (Raise _, w') => (Ret tt, w')
    | r => r
    end.

(** [try: m / except Exception as e: h e]. *)
Definition try_except_Exception {A} (m : M A) (h : exn -> M A) : M A :=
  fun w =>
    match m w with
    | (Raise e, w') => if is_Exception e then h e w' else (Raise e, w')
    | r => r
    end.

(** [with self.__lock: body]: blocks while another thread holds the lock,
    releases it on the way out, normal or exceptional. *)
Definition with_lock {A} (body : M A) : M A :=
  fun w =>
    if w_locked w then (Stuck, w)
    else
      let '(r, w') := body (set_locked true w) in
      match r with
      | Stuck => (Stuck, w')
      | _ => (r, set_locked false w')
      end.

(** [try: m / except: h] for a value-returning [m]. *)
Definition try_except_bare {A} (m : M A) (h : M A) : M A :=
  fun w =>
    match m w with
    | (Raise _, w') => h w'
    | r => r
    end.

(* ------------------------------------------------------------------ *)
(** ** The SAMP client calls used by the class *)

(** Reading [self.__samp] and [self.__samp_clientId]. *)
Definition samp_attr : M unit :=
  fun w => if w_samp w then (Ret tt, w) else (Raise AttributeError, w).

Definition clientId_attr : M (option str) :=
  fun w =>
    match w_clientId w with
    | None => (Raise AttributeError, w)
    | Some c => (Ret c, w)
    end.

(** [self.__samp.ecall_and_wait(self.__samp_clientId, mtype, timeout, cmd=cmd)]:
    the call is issued, then the hub answers with the response payload or
    an error (a timeout, a transport failure).  A response is returned
    as it is, whatever its [samp.status]. *)
Definition ecall_and_wait (mtype timeout cmd : str) : M str :=
  samp_attr ;;
  cid <- clientId_attr ;;
  w <- get_world ;;
  emit (EvCall cid mtype timeout cmd (w_locked w)) ;;
  w' <- get_world ;;
  match w_hub w' (w_log w') with
  | inl e => raise e
  | inr r => emit (EvReply mtype cmd) ;; ret r
  end.

(** [self.__samp.enotify(self.__samp_clientId, mtype)]. *)
Definition enotify (mtype : str) : M str :=
  samp_attr ;;
  cid <- clientId_attr ;;
  w <- get_world ;;
  emit (EvNotify cid mtype (w_locked w)) ;;
  w' <- get_world ;;
  match w_hub w' (w_log w') with
  | inl e => raise e
  | inr r => ret r
  end.

(* ------------------------------------------------------------------ *)
(** ** CommandGateway: [DS9.set] and [DS9.get] *)

(** [for cmd in cmds: self.__samp.ecall_and_wait(..., 'ds9.set', f"{int(timeout)}", cmd=cmd)]. *)
Fixpoint set_cmds (timeout : Z) (cmds : list str) : M unit :=
  match cmds with
  | [] => ret tt
  | cmd :: rest =>
      _ <- ecall_and_wait (lit "ds9.set") (str_of_Z timeout) cmd ;;
      set_cmds timeout rest
  end.

(** [def set(self, *cmds, timeout=10): with self.__lock: for cmd in cmds: ...]. *)
Definition set (cmds : list str) (timeout : Z) : M unit :=
  with_lock (set_cmds timeout cmds).

(** [def get(self, cmd, timeout=10): with self.__lock: return self.__samp.ecall_and_wait(...)]. *)
Definition get (cmd : str) (timeout : Z) : M str :=
  with_lock (ecall_and_wait (lit "ds9.get") (str_of_Z timeout) cmd).

(** [def alive(self)]: [try: with self.__lock: return enotify(..., 'samp.app.ping') == 'OK'
    except: return False]. *)
Definition alive : M bool :=
  try_except_bare
    (with_lock (r <- enotify (lit "samp.app.ping") ;; ret (str_eqb r (lit "OK"))))
    (ret false).

(* ------------------------------------------------------------------ *)
(** ** ShutdownCoordinator: [DS9.exit] *)

(** [self.__evtexit.set()]. *)
Definition evtexit_set : M unit :=
  fun w =>
    match w_evtexit w with
    | None => (Raise AttributeError, w)
    | Some _ => (Ret tt, set_evtexit (Some true) w)
    end.

(** [self.__watcher.join(timeout=1)]: joining a thread that was never
    started raises [RuntimeError]. *)
Definition watcher_join : M unit :=
  fun w =>
    match w_watcher w with
    | None => (Raise AttributeError, w)
    | Some false => (Raise (RuntimeError (lit "cannot join thread before it is started")), w)
    | Some true => emit EvJoin w
    end.

(** [self.__process.kill()]: [Popen.kill] does nothing on a process
    already reaped. *)
Definition process_kill : M unit :=
  fun w =>
    match w_process w with
    | None => (Raise AttributeError, w)
    | Some false => (Ret tt, w)
    | Some true => (emit EvKill ;; modify (set_process (Some false))) w
    end.

(** [Path(self.__samp_hub_file).unlink(missing_ok=True)]. *)
Definition hub_file_unlink : M unit :=
  fun w =>
    match w_hub_file w with
    | None => (Raise AttributeError, w)
    | Some f =>
        match w_unlink_err w with
        | Some e => (Raise e, w)
        | None =>
            (emit (EvUnlink f) ;;
             modify (set_files (filter (fun g => negb (str_eqb g f)) (w_files w)))) w
        end
    end.

(** [self.exit_callback()]. *)
Definition call_exit_callback (r : option exn) : M unit :=
  emit EvCallback ;;
  match r with
  | Some e => raise e
  | None => ret tt
  end.

(** [if self.exit_callback: try: self.exit_callback() except: pass]. *)
Definition exit_callback_step : M unit :=
  fun w =>
    match w_callback w with
    | None => (Ret tt, w)
    | Some r => try_pass (call_exit_callback r) w
    end.

(** [if self.kill_on_exit: try: os.kill(self.__pid, signal.SIGTERM) except: pass]. *)
Definition kill_on_exit_step : M unit :=
  fun w =>
    if w_kill_on_exit w then try_pass (emit (EvSigterm (w_pid w))) w
    else (Ret tt, w).

(** [def exit(self, use_callback=True, main_thread=True)] (lines 106-130).
    [use_callback] is a parameter of the method that its body never reads. *)
Definition exit (use_callback main_thread : bool) : M unit :=
  try_pass evtexit_set ;;
  (if main_thread then try_pass watcher_join else ret tt) ;;
  try_pass (set [lit "exit"] 10) ;;
  try_pass process_kill ;;
  try_pass hub_file_unlink ;;
  exit_callback_step ;;
  kill_on_exit_step.



(* ------------------------------------------------------------------ *)
(** ** Watchdog: [DS9.__watch_thread] *)

(** [self.__evtexit.wait(timeout=period)]: the flag when the wait wakes up. *)
Definition evtexit_wait : M bool :=
  fun w =>
    match w_evtexit w with
    | None => (Raise AttributeError, w)
    | Some b => (Ret b, w)
    end.

(** The [while True] loop of [__watch_thread] (lines 148-155).  Each
    iteration's wait for [period] seconds is an element of [waits]: what
    the other threads do to the state meanwhile (set [exitSignal], take
    the lock, ...).  When [waits] runs out the loop is still running. *)
Fixpoint watch_loop (waits : list (World -> World)) : M unit :=
  match waits with
  | [] => stuck
  | env :: rest =>
      modify env ;;
      s <- evtexit_wait ;;
      if s then ret tt
      else
        a <- alive ;;
        if a then watch_loop rest else ret tt
  end.

(** [def __watch_thread(self, period)]: the loop, then [self.exit(main_thread=False)]. *)
Definition watch_thread (waits : list (World -> World)) : M unit :=
  watch_loop waits ;;
  exit true false.

(* ------------------------------------------------------------------ *)
(** ** HandshakeCoordinator *)

(** [time.sleep(secs)]. *)
Definition sleep (secs : Z) : M unit :=
  emit (EvSleep secs) ;;
  modify (fun w => set_now (w_now w + secs) w).

(** [secs] seconds go by. *)
Definition elapse (secs : Z) : M unit :=
  modify (fun w => set_now (w_now w + secs) w).

Definition hub_not_found_msg (timeout : Z) : str :=
  lit "hub not found (timeout: " ++ str_of_Z timeout ++ lit ")".

Definition ds9_not_found_msg (timeout : Z) : str :=
  lit "ds9 not found (timeout: " ++ str_of_Z timeout ++ lit ")".

(** The hub connect loop (lines 75-83).  Each element of [attempts] is one
    [self.__samp.connect()]: [None] when it succeeds, [Some e] when it
    raises [e], with the seconds it took. *)
Fixpoint connect_loop (tstart timeout init_retry_time : Z)
    (attempts : list (option exn * Z)) : M unit :=
  match attempts with
  | [] => stuck
  | (r, d) :: rest =>
      emit EvConnect ;;
      elapse d ;;
      match r with
      | None => ret tt
      | Some SAMPHubError =>
          w <- get_world ;;
          if timeout <? w_now w - tstart
          then raise (RuntimeError (hub_not_found_msg timeout))
          else
            sleep init_retry_time ;;
            connect_loop tstart timeout init_retry_time rest
      | Some e => raise e
      end
  end.

(** Python dict lookup [d[k]] on a dict given by its items. *)
Fixpoint dict_get (k : str) (d : list (str * str)) : option str :=
  match d with
  | [] => None
  | (k', v) :: d' => if str_eqb k' k then Some v else dict_get k d'
  end.

(** [def __get_samp_clientId(self, title)] (lines 132-138): [clients] are
    the keys of [get_subscribed_clients('ds9.set')] in iteration order,
    [meta c] the dict [get_metadata(c)].  [c_meta['samp.name']] raises
    [KeyError] when the key is absent. *)
Fixpoint get_samp_clientId (title : str) (meta : str -> list (str * str))
    (clients : list str) : exn + option str :=
  match clients with
  | [] => inr None
  | c_id :: rest =>
      match dict_get (lit "samp.name") (meta c_id) with
      | None => inl (KeyError (lit "samp.name"))
      | Some name =>
          if str_eqb name title then inr (Some c_id)
          else get_samp_clientId title meta rest
      end
  end.

(** Python truthiness of [self.__samp_clientId] (a string or [None]). *)
Definition truthy (o : option str) : bool :=
  match o with
  | Some (_ :: _) => true
  | _ => false
  end.

(** One discovery pass as the hub answers it: the subscribed clients, their
    metadata, and the seconds the pass took. *)
Definition pass_answer : Type := (list str * (str -> list (str * str)) * Z)%type.

(** The peer discovery loop (lines 85-92). *)
Fixpoint discover_loop (title : str) (tstart timeout init_retry_time : Z)
    (passes : list pass_answer) : M unit :=
  match passes with
  | [] => stuck
  | (clients, meta, d) :: rest =>
      elapse d ;;
      match get_samp_clientId title meta clients with
      | inl e => raise e
      | inr cid =>
          modify (set_clientId (Some cid)) ;;
          if truthy cid then ret tt
          else
            w <- get_world ;;
            if timeout <? w_now w - tstart
            then raise (RuntimeError (ds9_not_found_msg timeout))
            else
              sleep init_retry_time ;;
              discover_loop title tstart timeout init_retry_time rest
      end
  end.

(* ------------------------------------------------------------------ *)
(** ** Module configuration (lines 17-18) *)

(** [DS9_EXE = os.environ.get('DS9_EXE', 'ds9v8.7')] and
    [SAMP_HUB_PATH = os.environ.get('SAMP_HUB_PATH', f"{os.environ['HOME']}/.samp-ds9")],
    for an environment given by its items.  The default argument of the
    second [get] is evaluated before the call: [os.environ['HOME']] is
    read, and raises [KeyError] when absent, whether or not
    [SAMP_HUB_PATH] is set. *)
Definition module_config (environ : list (str * str)) : exn + (str * str) :=
  let DS9_EXE :=
    match dict_get (lit "DS9_EXE") environ with Some v => v | None => lit "ds9v8.7" end in
  match dict_get (lit "HOME") environ with
  | None => inl (KeyError (lit "HOME"))
  | Some home =>
      let default := home ++ lit "/.samp-ds9" in
      inr (DS9_EXE,
           match dict_get (lit "SAMP_HUB_PATH") environ with Some v => v | None => default end)
  end.

(* ------------------------------------------------------------------ *)
(** ** The ds9 command line (lines 68-69) *)

(** [shlex.split(s)]: a [shlex] lexer with [posix=True],
    [whitespace_split=True] and no comment characters.  Its character
    classes: [whitespace = ' \t\r\n'], [quotes = '\''] and the double
    quote, [escape = '\\'], [escapedquotes] the double quote only. *)
Definition nonempty (s : str) : bool := match s with [] => false | _ => true end.
Definition sh_whitespace (c : Z) : bool := (c =? 32) || (c =? 9) || (c =? 13) || (c =? 10).
Definition sh_quote (c : Z) : bool := (c =? 39) || (c =? 34).
Definition sh_escape (c : Z) : bool := c =? 92.
Definition sh_escapedquote (c : Z) : bool := c =? 34.

(** The lexer's [state]: [' '] between tokens, ['a'] inside a word, a
    quote character inside quotes, the escape character after a
    backslash (with [escapedstate] the state to return to: a quote, or
    [None] for ['a']). *)
Inductive lex_state : Type :=
| LSpace
| LWord
| LQuote (q : Z)
| LEscape (escapedstate : option Z).

Definition cons_token (t : str) (r : str + list str) : str + list str :=
  match r with inl e => inl e | inr l => inr (t :: l) end.

(** [shlex.read_token] repeated until the end of input, as [split]
    does; [inl msg] is the [ValueError] it raises.  [quoted] records
    that the current token went through quotes, so that [''] yields an
    empty token. *)
Fixpoint lex (state : lex_state) (token : str) (quoted : bool) (s : str) : str + list str :=
  match s with
  | [] =>
      match state with
      | LQuote _ => inl (lit "No closing quotation")
      | LEscape _ => inl (lit "No escaped character")
      | _ => if nonempty token || quoted then inr [token] else inr []
      end
  | c :: s' =>
      match state with
      | LSpace =>
          if sh_whitespace c then
            if nonempty token || quoted then cons_token token (lex LSpace [] false s')
            else lex LSpace token quoted s'
          else if sh_escape c then lex (LEscape None) token quoted s'
          else if sh_quote c then lex (LQuote c) token quoted s'
          else lex LWord [c] quoted s'
      | LQuote q =>
          if c =? q then lex LWord token true s'
          else if sh_escape c && sh_escapedquote q then lex (LEscape (Some q)) token true s'
          else lex (LQuote q) (token ++ [c]) true s'
      | LEscape es =>
          let token' :=
            match es with
            | Some q => if negb (c =? 92) && negb (c =? q) then token ++ [92] else token
            | None => token
            end in
          lex (match es with Some q => LQuote q | None => LWord end) (token' ++ [c]) quoted s'
      | LWord =>
          if sh_whitespace c then
            if nonempty token || quoted then cons_token token (lex LSpace [] false s')
            else lex LSpace token quoted s'
          else if sh_quote c then lex (LQuote c) token quoted s'
          else if sh_escape c then lex (LEscape None) token quoted s'
          else lex LWord (token ++ [c]) quoted s'
      end
  end.

Definition shlex_split (s : str) : str + list str := lex LSpace [] false s.

(** [cmd = f"{DS9_EXE} -samp client yes -samp hub yes -samp web hub no -xpa no -title '{title}' {ds9args}"] (line 68). *)
Definition ds9_cmd (DS9_EXE title ds9args : str) : str :=
  DS9_EXE ++ lit " -samp client yes -samp hub yes -samp web hub no -xpa no -title '"
  ++ title ++ lit "' " ++ ds9args.

(** [shlex.split(cmd)], the argument vector given to [subprocess.Popen] (line 69). *)
Definition ds9_argv (DS9_EXE title ds9args : str) : str + list str :=
  shlex_split (ds9_cmd DS9_EXE title ds9args).

(** The fixed options of the command line, up to the title. *)
Definition ds9_flags : list str :=
  map lit ["-samp"; "client"; "yes"; "-samp"; "hub"; "yes"; "-samp"; "web"; "hub"; "no";
           "-xpa"; "no"; "-title"]%string.

(** A character the lexer takes as a plain word character. *)
Definition sh_plain (c : Z) : bool := negb (sh_whitespace c || sh_quote c || sh_escape c).

(* ------------------------------------------------------------------ *)
(** ** The constructor [DS9.__init__] *)

(** The constructor parameters the embedded code uses ([ds9args] only
    extends the command line, [debug] only prints). *)
Record Params : Type := mkParams {
  p_title : str;
  p_timeout : Z;
  p_exit_callback : option (option exn);
  p_kill_on_exit : bool;
  p_poll_alive_time : Z;
  p_init_retry_time : Z
}.

(** How the environment answers during construction. *)
Record Script : Type := mkScript {
  sc_hub_path : str;                      (* SAMP_HUB_PATH *)
  sc_mkdir : option exn;                  (* Path(SAMP_HUB_PATH).mkdir(...) *)
  sc_stamp : str;                         (* tnow.strftime('%Y%m%dT%H%M%S') *)
  sc_usec : Z;                            (* tnow.microsecond *)
  sc_popen : option exn;                  (* subprocess.Popen(...) *)
  sc_connects : list (option exn * Z);    (* successive connect() attempts *)
  sc_passes : list pass_answer;           (* successive discovery passes *)
  sc_thread : option exn                  (* self.__watcher.start() *)
}.

(** Lines 47-53, before the [try]: the configuration, the lock and the event. *)
Definition init_prelude (p : Params) : M unit :=
  modify (set_config (p_exit_callback p) (p_kill_on_exit p)) ;;
  modify (set_locked false) ;;
  modify (set_evtexit (Some false)).

(** The body of the [try] (lines 56-97). *)
Definition init_body (p : Params) (sc : Script) : M unit :=
  match sc_mkdir sc with Some e => raise e | None => ret tt end ;;
  w <- get_world ;;
  modify (set_hub_file (Some (samp_hub_file (sc_hub_path sc) (p_title p)
                                (sc_stamp sc) (sc_usec sc) (w_pid w)))) ;;
  match sc_popen sc with
  | Some e => raise e
  | None => emit (EvSpawn (p_title p)) ;; modify (set_process (Some true))
  end ;;
  modify (set_samp true) ;;
  modify (set_clientId (Some None)) ;;
  w0 <- get_world ;;
  connect_loop (w_now w0) (p_timeout p) (p_init_retry_time p) (sc_connects sc) ;;
  discover_loop (p_title p) (w_now w0) (p_timeout p) (p_init_retry_time p) (sc_passes sc) ;;
  if 0 <? p_poll_alive_time p then
    modify (set_watcher (Some false)) ;;
    match sc_thread sc with
    | Some e => raise e
    | None => emit EvThreadStart ;; modify (set_watcher (Some true))
    end
  else ret tt.

(** [DS9.__init__]: [try: body / except Exception as e: self.exit(); raise e]. *)
Definition DS9_init (p : Params) (sc : Script) : M unit :=
  init_prelude p ;;
  try_except_Exception (init_body p sc) (fun e => exit true true ;; raise e).

(* ------------------------------------------------------------------ *)
(** ** Auxiliary notions for the statements *)

(** [m] never raises out of itself / never blocks. *)
Definition NoRaise {A} (m : M A) : Prop := forall w e, fst (m w) <> Raise e.
Definition NoStuck {A} (m : M A) : Prop := forall w, fst (m w) <> Stuck.

(** The state a step leaves behind, whatever its outcome. *)
Definition effect {A} (m : M A) (w : World) : World := snd (m w).

(** The states the steps of [exit] leave one after the other, whatever
    the outcome of each step. *)
Definition exit_steps (main_thread : bool) (w : World) : World :=
  effect kill_on_exit_step
   (effect exit_callback_step
    (effect hub_file_unlink
     (effect process_kill
      (effect (set [lit "exit"] 10)
       (effect (if main_thread then watcher_join else ret tt)
        (effect evtexit_set w)))))).

(** The events [DS9.exit] may append: its calls to the peer, the kill,
    the unlink, the callback, the SIGTERM, and the join only when
    [main_thread]. *)
Definition teardown_event (main_thread : bool) (e : event) : Prop :=
  match e with
  | EvCall _ _ _ _ _ | EvReply _ _ | EvKill | EvUnlink _ | EvCallback | EvSigterm _ => True
  | EvJoin => main_thread = true
  | _ => False
  end.

(** The events of the commands [cmds] each issued under the lock and
    answered, in order. *)
Definition acked (cid : option str) (timeout : Z) (cmds : list str) : list event :=
  flat_map (fun c => [EvCall cid (lit "ds9.set") (str_of_Z timeout) c true;
                      EvReply (lit "ds9.set") c]) cmds.


(** The state after the lines before the [try] of [__init__]. *)
Definition prelude_world (p : Params) (w : World) : World :=
  set_evtexit (Some false) (set_locked false (set_config (p_exit_callback p) (p_kill_on_exit p) w)).







(* ------------------------------------------------------------------ *)
(** ** Concrete scenarios *)

(** A peer that answers every call with ['OK']. *)
Definition hub_ok : list event -> exn + str := fun _ => inr (lit "OK").

(** A peer that rejects the command ["zoom 2"] (the call raises) and
    answers the others. *)
Definition hub_rejects_zoom : list event -> exn + str :=
  fun l =>
    match rev l with
    | EvCall _ _ _ cmd _ :: _ =>
        if str_eqb cmd (lit "zoom 2") then inl (SAMPProxyError (lit "samp.error"))
        else inr (lit "OK")
    | _ => inr (lit "OK")
    end.

(** The state of a [DS9] object before [__init__] ran: no attribute
    assigned yet; process 4242, clock at 1000 s. *)
Definition fresh_world : World :=
  mkWorld None false None None false None None [] None false 4242 1000 None hub_ok [].

(** [DS9()] with its defaults and an exit callback that returns. *)
Definition params_default : Params := mkParams (lit "ds9SAMP") 15 (Some None) false 5 1.

(** ds9 registered as client [c1] under the name [ds9SAMP]. *)
Definition meta_ds9 (c : str) : list (str * str) :=
  if str_eqb c (lit "c1") then [(lit "samp.name", lit "ds9SAMP")] else [].


(** The hub shows up on the second attempt, ds9 on the second pass. *)
Definition script_ok : Script :=
  mkScript (lit "/home/user/.samp-ds9") None (lit "20240102T030405") 42 None
    [(Some SAMPHubError, 0); (None, 0)]
    [([], meta_ds9, 0); ([lit "c1"], meta_ds9, 0)] None.




(** A supervisor after a successful construction. *)
Definition running_world : World := snd (DS9_init params_default script_ok fresh_world).

(** A supervisor after a successful construction, whose peer rejects
    the command ["zoom 2"]. *)
Definition running_world_zoom : World :=
  snd (DS9_init params_default script_ok
         (mkWorld None false None None false None None [] None false 4242 1000 None
            hub_rejects_zoom [])).

(* ================================================================== *)
(** * Properties *)

Lemma str_eqb_eq : forall a b, str_eqb a b = true <-> a = b.
Proof.
  induction a as [|x a IH]; destruct b as [|y b]; simpl;
    try (split; congruence).
  rewrite andb_true_iff, Z.eqb_eq, IH. split.
  - intros [-> ->]. reflexivity.
  - intros H. inversion H. auto.
Qed.

Example name_ex : samp_hub_name (lit "hello world") (lit "20240102T030405") 42 1234
  = lit "hello_world_utc20240102T030405.000042_pid1234".
Proof. reflexivity. Qed.
Example name_ex2 : sanitize (lit "a\b/c") = lit "a\b_c".
Proof. reflexivity. Qed.

(* ------------------------------------------------------------------ *)
(** ** Hub endpoint naming *)

Lemma sanitize_app : forall a b, sanitize (a ++ b) = sanitize a ++ sanitize b.
Proof. intros. apply map_app. Qed.

Lemma digit_in_class : forall n, in_class (digit (n mod 10)) = true.
Proof.
  intros n. pose proof (Z.mod_pos_bound n 10 ltac:(lia)).
  unfold in_class, digit.
  replace ((48 <=? 48 + n mod 10) && (48 + n mod 10 <=? 57)) with true
    by (symmetry; apply andb_true_iff; split; apply Z.leb_le; lia).
  rewrite !orb_true_r. reflexivity.
Qed.

Lemma sanitize_zero_padded : forall k n, sanitize (zero_padded k n) = zero_padded k n.
Proof.
  induction k as [|k IH]; intros n; simpl; [reflexivity|].
  rewrite sanitize_app, IH. simpl. rewrite digit_in_class. reflexivity.
Qed.

Lemma zero_padded_length : forall k n, List.length (zero_padded k n) = k.
Proof.
  induction k as [|k IH]; intros n; simpl; [reflexivity|].
  rewrite length_app, IH. simpl. lia.
Qed.

Lemma zero_padded_inj : forall k n1 n2,
  0 <= n1 < 10 ^ Z.of_nat k -> 0 <= n2 < 10 ^ Z.of_nat k ->
  zero_padded k n1 = zero_padded k n2 -> n1 = n2.
Proof.
  induction k as [|k IH]; intros n1 n2 B1 B2 E.
  - simpl in B1, B2. lia.
  - simpl in E. apply app_inj_tail in E as [E D].
    unfold digit in D.
    rewrite Nat2Z.inj_succ, Z.pow_succ_r in B1, B2 by lia.
    assert (n1 / 10 = n2 / 10).
    { apply IH; [split|split| exact E];
        try apply Z.div_pos; try lia; apply Z.div_lt_upper_bound; lia. }
    rewrite (Z.div_mod n1 10), (Z.div_mod n2 10) by lia. lia.
Qed.

Lemma app_eq_length_r : forall (A : Type) (l1 l2 a b : list A),
  l1 ++ a = l2 ++ b -> List.length a = List.length b -> a = b.
Proof.
  intros A l1 l2 a b E L.
  assert (List.length l1 = List.length l2).
  { apply (f_equal (@List.length A)) in E. rewrite !length_app in E. lia. }
  apply (f_equal (skipn (List.length l1))) in E.
  rewrite skipn_app, Nat.sub_diag, skipn_all in E.
  rewrite H, skipn_app, Nat.sub_diag, skipn_all in E. exact E.
Qed.

(** C7 (code as written): the character class of [r'[^A-Za-z0-9\\.]']
    holds the backslash, so [re.sub] leaves a backslash of the title in
    the endpoint name, while every other character outside
    [A-Za-z0-9.] becomes [_]. *)
Theorem sanitize_keeps_backslash :
  sanitize (lit "ds9\x") = lit "ds9\x" /\ in_class 92 = true
  /\ (forall c, in_class c = true <->
        (65 <= c <= 90 \/ 97 <= c <= 122 \/ 48 <= c <= 57 \/ c = 46 \/ c = 92)).
Proof.
  split; [reflexivity|]. split; [reflexivity|].
  intros c. unfold in_class.
  rewrite !orb_true_iff, !andb_true_iff, !Z.leb_le, !Z.eqb_eq. tauto.
Qed.

(** C9: the endpoint-name sanitization is idempotent. *)
Theorem sanitize_idempotent : forall s, sanitize (sanitize s) = sanitize s.
Proof.
  intros s. unfold sanitize. rewrite map_map. apply map_ext. intros c.
  destruct (in_class c) eqn:E; [rewrite E; reflexivity | reflexivity].
Qed.

(** C8 (amended): two endpoint paths built in one process (same pid) in
    the same UTC second (same stamp) differ whenever the microsecond
    components differ; the pid, equal in one process, gives no
    disambiguation: in the same microsecond, titles that sanitize to the
    same string give the same path. *)
Theorem samp_hub_file_same_process :
  (forall hub_path t1 t2 stamp us1 us2 pid,
     0 <= us1 < 10 ^ 6 -> 0 <= us2 < 10 ^ 6 -> us1 <> us2 ->
     samp_hub_file hub_path t1 stamp us1 pid <> samp_hub_file hub_path t2 stamp us2 pid)
  /\ (forall hub_path t1 t2 stamp us pid,
     sanitize t1 = sanitize t2 ->
     samp_hub_file hub_path t1 stamp us pid = samp_hub_file hub_path t2 stamp us pid).
Proof.
  split.
  - intros hp t1 t2 stamp us1 us2 pid B1 B2 D E. apply D.
    unfold samp_hub_file, samp_hub_name, samp_hub_raw_name in E.
    apply app_inv_head in E.
    rewrite !sanitize_app, !sanitize_zero_padded in E.
    rewrite !app_assoc in E.
    apply app_inv_tail in E. apply app_inv_tail in E. apply app_inv_tail in E.
    apply app_eq_length_r in E; [| rewrite !zero_padded_length; reflexivity].
    apply (zero_padded_inj 6); simpl; lia || assumption.
  - intros hp t1 t2 stamp us pid E.
    unfold samp_hub_file, samp_hub_name, samp_hub_raw_name.
    rewrite !(sanitize_app t1), !(sanitize_app t2), E. reflexivity.
Qed.

(* ------------------------------------------------------------------ *)
(** ** Monad facts *)

Ltac run :=
  repeat (cbv [bind ret raise stuck get_world modify emit try_pass try_except_bare
               with_lock samp_attr clientId_attr] in *; simpl in *);
  repeat (match goal with
          | H : (_, _) = (_, _) |- _ => injection H; clear H; intros; subst
          | H : context [match ?x with _ => _ end] |- _ => destruct x eqn:?
          | |- context [match ?x with _ => _ end] => destruct x eqn:?
          end; simpl in *); try congruence.


Lemma try_pass_run : forall m w, fst (m w) <> Stuck -> try_pass m w = (Ret tt, snd (m w)).
Proof.
  intros m w H. unfold try_pass. destruct (m w) as [[[]|e'|] w']; simpl in *; congruence.
Qed.



Lemma bind_run : forall A B (m : M A) (k : A -> M B) w a w',
  m w = (Ret a, w') -> bind m k w = k a w'.
Proof. intros A B m k w a w' H. unfold bind. rewrite H. reflexivity. Qed.

Lemma ecall_and_wait_no_stuck : forall mtype timeout cmd, NoStuck (ecall_and_wait mtype timeout cmd).
Proof. intros mtype timeout cmd w. unfold ecall_and_wait. run. Qed.

Lemma set_cmds_no_stuck : forall timeout cmds, NoStuck (set_cmds timeout cmds).
Proof.
  intros timeout cmds. induction cmds as [|c cs IH]; intros w; simpl.
  - discriminate.
  - unfold bind. pose proof (ecall_and_wait_no_stuck (lit "ds9.set") (str_of_Z timeout) c w).
    destruct (ecall_and_wait _ _ c w) as [[a|e|] w']; simpl in *; auto; congruence.
Qed.

Lemma set_no_stuck : forall cmds timeout w, w_locked w = false -> fst (set cmds timeout w) <> Stuck.
Proof.
  intros cmds timeout w L. unfold set, with_lock. rewrite L.
  pose proof (set_cmds_no_stuck timeout cmds (set_locked true w)).
  destruct (set_cmds timeout cmds (set_locked true w)) as [[a|e|] w']; simpl in *; congruence.
Qed.

Lemma evtexit_set_no_stuck : NoStuck evtexit_set.
Proof. intros w. unfold evtexit_set. destruct (w_evtexit w); discriminate. Qed.

Lemma watcher_join_no_stuck : NoStuck watcher_join.
Proof. intros w. unfold watcher_join. destruct (w_watcher w) as [[]|]; run. Qed.

Lemma process_kill_no_stuck : NoStuck process_kill.
Proof. intros w. unfold process_kill. destruct (w_process w) as [[]|]; run. Qed.

Lemma hub_file_unlink_no_stuck : NoStuck hub_file_unlink.
Proof. intros w. unfold hub_file_unlink. run. Qed.

Lemma evtexit_set_locked : forall w, w_locked (effect evtexit_set w) = w_locked w.
Proof. intros w. unfold effect, evtexit_set. destruct (w_evtexit w); reflexivity. Qed.

Lemma watcher_join_locked : forall w, w_locked (effect watcher_join w) = w_locked w.
Proof. intros w. unfold effect, watcher_join. destruct (w_watcher w) as [[]|]; reflexivity. Qed.

Lemma exit_callback_step_run : forall w,
  exit_callback_step w = (Ret tt, effect exit_callback_step w).
Proof. intros w. unfold effect, exit_callback_step. destruct (w_callback w) as [[]|]; run. Qed.

Lemma kill_on_exit_step_run : forall w,
  kill_on_exit_step w = (Ret tt, effect kill_on_exit_step w).
Proof. intros w. unfold effect, kill_on_exit_step. run. Qed.




(* ------------------------------------------------------------------ *)
(** ** Frame properties: what the methods leave alone *)

Section Frame.
Variable B : Type.
Variable proj : World -> B.
Hypothesis proj_log : forall l w, proj (set_log l w) = proj w.
Hypothesis proj_locked : forall b w, proj (set_locked b w) = proj w.

(** [m] leaves [proj] unchanged, whatever its outcome. *)
Definition Keeps {A} (m : M A) : Prop := forall w, proj (snd (m w)) = proj w.

Lemma keeps_bind : forall A C (m : M A) (k : A -> M C),
  Keeps m -> (forall a, Keeps (k a)) -> Keeps (bind m k).
Proof.
  intros A C m k Hm Hk w. unfold bind. specialize (Hm w).
  destruct (m w) as [[a|e|] w']; simpl in *; [rewrite Hk|..]; auto.
Qed.

Lemma keeps_ret : forall A (a : A), Keeps (ret a).
Proof. intros A a w. reflexivity. Qed.

Lemma keeps_raise : forall A e, Keeps (@raise A e).
Proof. intros A e w. reflexivity. Qed.

Lemma keeps_get_world : Keeps get_world.
Proof. intros w. reflexivity. Qed.

Lemma keeps_emit : forall e, Keeps (emit e).
Proof. intros e w. apply proj_log. Qed.

Lemma keeps_try_pass : forall m, Keeps m -> Keeps (try_pass m).
Proof. intros m H w. unfold try_pass. specialize (H w). destruct (m w) as [[]] ; auto. Qed.


Lemma keeps_with_lock : forall A (m : M A), Keeps m -> Keeps (with_lock m).
Proof.
  intros A m H w. unfold with_lock. destruct (w_locked w); [reflexivity|].
  specialize (H (set_locked true w)). rewrite proj_locked in H.
  destruct (m (set_locked true w)) as [[]]; simpl in *; rewrite ?proj_locked; auto.
Qed.

Lemma keeps_samp_attr : Keeps samp_attr.
Proof. intros w. unfold samp_attr. destruct (w_samp w); reflexivity. Qed.

Lemma keeps_clientId_attr : Keeps clientId_attr.
Proof. intros w. unfold clientId_attr. destruct (w_clientId w); reflexivity. Qed.

Lemma keeps_ecall_and_wait : forall mtype timeout cmd, Keeps (ecall_and_wait mtype timeout cmd).
Proof.
  intros. unfold ecall_and_wait.
  repeat first [ apply keeps_bind | apply keeps_samp_attr | apply keeps_clientId_attr
               | apply keeps_get_world | apply keeps_emit | apply keeps_ret
               | apply keeps_raise
               | match goal with |- Keeps (match ?x with _ => _ end) => destruct x end
               | match goal with |- forall _, Keeps _ => intros ? end ].
Qed.


Lemma keeps_set : forall cmds timeout, Keeps (set cmds timeout).
Proof.
  intros cmds timeout. unfold set. apply keeps_with_lock.
  induction cmds as [|c cs IH]; simpl.
  - apply keeps_ret.
  - apply keeps_bind; [apply keeps_ecall_and_wait | intros _; exact IH].
Qed.


End Frame.

Arguments Keeps {B} proj {A} m.

Ltac keeps_step :=
  intros ?w; unfold effect; run.

Ltac keeps_auto :=
  repeat first [ apply keeps_bind | apply keeps_ret | apply keeps_raise | apply keeps_get_world
               | apply keeps_emit | apply keeps_try_pass | apply keeps_set
               | match goal with |- forall _, Keeps _ _ => intros ? end ]; auto.


(* ------------------------------------------------------------------ *)
(** ** What the methods append to the call log *)

Section Log.
Variable P : event -> Prop.

(** [m] only appends events satisfying [P] to the log. *)
Definition Appends {A} (m : M A) : Prop :=
  forall w, exists evs, w_log (snd (m w)) = w_log w ++ evs /\ Forall P evs.

Lemma appends_bind : forall A C (m : M A) (k : A -> M C),
  Appends m -> (forall a, Appends (k a)) -> Appends (bind m k).
Proof.
  intros A C m k Hm Hk w. unfold bind. destruct (Hm w) as [evs [E F]].
  destruct (m w) as [[a|e|] w']; simpl in *; eauto.
  destruct (Hk a w') as [evs' [E' F']]. exists (evs ++ evs').
  rewrite E', E, app_assoc. split; [reflexivity|]. apply Forall_app; auto.
Qed.

Lemma appends_ret : forall A (a : A), Appends (ret a).
Proof. intros A a w. exists []. rewrite app_nil_r. auto. Qed.

Lemma appends_raise : forall A e, Appends (@raise A e).
Proof. intros A e w. exists []. rewrite app_nil_r. auto. Qed.

Lemma appends_get_world : Appends get_world.
Proof. intros w. exists []. rewrite app_nil_r. auto. Qed.

Lemma appends_emit : forall e, P e -> Appends (emit e).
Proof. intros e H w. exists [e]. auto. Qed.

Lemma appends_try_pass : forall m, Appends m -> Appends (try_pass m).
Proof. intros m H w. unfold try_pass. destruct (H w) as [evs [E F]]. destruct (m w) as [[]]; eauto. Qed.

Lemma appends_with_lock : forall A (m : M A), Appends m -> Appends (with_lock m).
Proof.
  intros A m H w. unfold with_lock. destruct (w_locked w); [exists []; rewrite app_nil_r; auto|].
  destruct (H (set_locked true w)) as [evs [E F]].
  destruct (m (set_locked true w)) as [[]]; simpl in *; eauto.
Qed.

Lemma appends_samp_attr : Appends samp_attr.
Proof. intros w. exists []. rewrite app_nil_r. unfold samp_attr. destruct (w_samp w); auto. Qed.

Lemma appends_clientId_attr : Appends clientId_attr.
Proof. intros w. exists []. rewrite app_nil_r. unfold clientId_attr. destruct (w_clientId w); auto. Qed.

Hypothesis P_call : forall r mt t c l, P (EvCall r mt t c l).
Hypothesis P_reply : forall mt c, P (EvReply mt c).

Lemma appends_ecall_and_wait : forall mtype timeout cmd, Appends (ecall_and_wait mtype timeout cmd).
Proof.
  intros. unfold ecall_and_wait.
  repeat first [ apply appends_bind | apply appends_samp_attr | apply appends_clientId_attr
               | apply appends_get_world | apply appends_emit | apply appends_ret
               | apply appends_raise
               | match goal with |- Appends (match ?x with _ => _ end) => destruct x end
               | match goal with |- forall _, Appends _ => intros ? end ]; auto.
Qed.

Lemma appends_set : forall cmds timeout, Appends (set cmds timeout).
Proof.
  intros cmds timeout. unfold set. apply appends_with_lock.
  induction cmds as [|c cs IH]; simpl.
  - apply appends_ret.
  - apply appends_bind; [apply appends_ecall_and_wait | intros _; exact IH].
Qed.
End Log.

Arguments Appends P {A} m.

Ltac log_done :=
  split; [reflexivity|]; repeat (apply Forall_cons; [simpl; auto|]); apply Forall_nil.

Lemma appends_exit : forall u m, Appends (teardown_event m) (exit u m).
Proof.
  intros u m. unfold exit.
  assert (Nil : forall w w' (r : outcome unit), w_log w' = w_log w ->
            exists evs, w_log (snd (r, w')) = w_log w ++ evs /\ Forall (teardown_event m) evs)
    by (intros w w' r E; exists []; rewrite app_nil_r; auto).
  apply appends_bind; [apply appends_try_pass; intros w; unfold evtexit_set; destruct (w_evtexit w); apply Nil; reflexivity|intros _].
  apply appends_bind; [destruct m; [apply appends_try_pass; intros w; unfold watcher_join;
      destruct (w_watcher w) as [[]|]; [exists [EvJoin]; log_done | apply Nil; reflexivity | apply Nil; reflexivity]
      | apply appends_ret]|intros _].
  apply appends_bind; [apply appends_try_pass, appends_set; simpl; auto|intros _].
  apply appends_bind; [apply appends_try_pass; intros w; unfold process_kill;
      destruct (w_process w) as [[]|]; [exists [EvKill]; log_done | apply Nil; reflexivity | apply Nil; reflexivity]|intros _].
  apply appends_bind; [apply appends_try_pass; intros w; unfold hub_file_unlink;
      destruct (w_hub_file w) as [f|]; [destruct (w_unlink_err w); [apply Nil; reflexivity|] | apply Nil; reflexivity];
      exists [EvUnlink f]; log_done|intros _].
  apply appends_bind; [intros w; unfold exit_callback_step; destruct (w_callback w) as [[]|];
      [| |apply Nil; reflexivity]; unfold try_pass, call_exit_callback; run; exists [EvCallback]; log_done|intros _].
  intros w; unfold kill_on_exit_step. destruct (w_kill_on_exit w); [|apply Nil; reflexivity].
  run. exists [EvSigterm (w_pid w)]. log_done.
Qed.

(** When the lock is free, [exit] returns normally and its final state is
    the composition of the states its steps leave. *)
Lemma exit_run : forall u m w, w_locked w = false -> exit u m w = (Ret tt, exit_steps m w).
Proof.
  intros u m w L. unfold exit, exit_steps.
  erewrite bind_run by (apply try_pass_run, evtexit_set_no_stuck).
  assert (L1 : w_locked (effect (if m then watcher_join else ret tt) (effect evtexit_set w)) = false).
  { destruct m; [rewrite watcher_join_locked|];
      [|change (effect (ret tt) ?x) with x]; rewrite evtexit_set_locked; exact L. }
  destruct m;
    [erewrite bind_run by (apply try_pass_run, watcher_join_no_stuck)
    | erewrite bind_run by reflexivity];
  (erewrite bind_run by (apply try_pass_run, set_no_stuck; exact L1));
  (erewrite bind_run by (apply try_pass_run, process_kill_no_stuck));
  (erewrite bind_run by (apply try_pass_run, hub_file_unlink_no_stuck));
  (erewrite bind_run by apply exit_callback_step_run);
  rewrite kill_on_exit_step_run; reflexivity.
Qed.



(* ------------------------------------------------------------------ *)
(** ** CommandGateway *)

Lemma ecall_and_wait_run : forall mtype t c w cid,
  w_samp w = true -> w_clientId w = Some cid ->
  ecall_and_wait mtype t c w =
  match w_hub w (w_log w ++ [EvCall cid mtype t c (w_locked w)]) with
  | inl e => (Raise e, set_log (w_log w ++ [EvCall cid mtype t c (w_locked w)]) w)
  | inr r => (Ret r, set_log ((w_log w ++ [EvCall cid mtype t c (w_locked w)])
                              ++ [EvReply mtype c]) w)
  end.
Proof.
  intros mtype t c w cid S C. unfold ecall_and_wait.
  cbv [bind samp_attr clientId_attr get_world emit modify ret raise]. rewrite S, C. simpl.
  destruct (w_hub w _); reflexivity.
Qed.

Lemma set_cmds_log : forall cid timeout cmds w,
  w_samp w = true -> w_clientId w = Some cid -> w_locked w = true ->
  set_cmds timeout cmds w = (Ret tt, set_log (w_log w ++ acked cid timeout cmds) w)
  \/ exists k e, (k < List.length cmds)%nat /\
     set_cmds timeout cmds w =
     (Raise e, set_log (w_log w ++ acked cid timeout (firstn k cmds)
                        ++ [EvCall cid (lit "ds9.set") (str_of_Z timeout) (nth k cmds []) true]) w).
Proof.
  intros cid timeout cmds. induction cmds as [|c cs IH]; intros w Hs C L.
  - left. simpl. rewrite app_nil_r. destruct w; reflexivity.
  - simpl set_cmds. unfold bind. rewrite (ecall_and_wait_run _ _ _ w cid Hs C), L.
    destruct (w_hub w _) as [e|r] eqn:H.
    + right. exists O, e. simpl. split; [lia|]. reflexivity.
    + destruct (IH (set_log ((w_log w ++ [EvCall cid (lit "ds9.set") (str_of_Z timeout) c true])
                             ++ [EvReply (lit "ds9.set") c]) w)) as [IHl|[k [e [K IHr]]]];
        simpl; auto.
      * left. rewrite IHl. simpl. rewrite <- !app_assoc. reflexivity.
      * right. exists (S k), e. simpl. split; [lia|]. rewrite IHr. simpl.
        rewrite <- !app_assoc. reflexivity.
Qed.

(** C5: [set(cmd...)] issues the commands one at a time in the given
    order, each answered before the next is issued, all under the lock
    (which it releases); when the [k]-th raises, the earlier ones were
    all issued and answered and no later one is issued. *)
Theorem set_in_order : forall cmds timeout w cid,
  w_locked w = false -> w_samp w = true -> w_clientId w = Some cid ->
  w_locked (snd (set cmds timeout w)) = false /\
  ((fst (set cmds timeout w) = Ret tt
    /\ w_log (snd (set cmds timeout w)) = w_log w ++ acked cid timeout cmds)
   \/ exists k e, (k < List.length cmds)%nat /\ fst (set cmds timeout w) = Raise e
      /\ w_log (snd (set cmds timeout w))
         = w_log w ++ acked cid timeout (firstn k cmds)
           ++ [EvCall cid (lit "ds9.set") (str_of_Z timeout) (nth k cmds []) true]).
Proof.
  intros cmds timeout w cid L S C. unfold set, with_lock. rewrite L.
  destruct (set_cmds_log cid timeout cmds (set_locked true w)) as [H|[k [e [K H]]]];
    simpl; auto; rewrite H; simpl.
  - split; [reflexivity|]. left. auto.
  - split; [reflexivity|]. right. exists k, e. auto.
Qed.

(* ------------------------------------------------------------------ *)
(** ** Watchdog *)

Lemma alive_run : forall w cid,
  w_samp w = true -> w_clientId w = Some cid -> w_locked w = false ->
  let ping := EvNotify cid (lit "samp.app.ping") true in
  alive w = (Ret (match w_hub w (w_log w ++ [ping]) with
                  | inr r => str_eqb r (lit "OK")
                  | inl _ => false
                  end), set_log (w_log w ++ [ping]) w).
Proof.
  intros [] cid S C L; simpl in *; subst.
  unfold alive, try_except_bare, with_lock, enotify.
  cbv [bind samp_attr clientId_attr get_world emit modify ret raise]. simpl.
  destruct (w_hub0 _); reflexivity.
Qed.

(** C6: one iteration of [__watch_thread].  When the wait wakes up with
    [exitSignal] set, the thread runs [exit(main_thread=False)] and issues
    no ping (and joins nothing).  When it wakes up with the signal unset,
    it issues one ping under the lock, goes on waiting when the peer
    answers ['OK'], and otherwise (an error or any other answer) runs
    [exit(main_thread=False)]. *)
Theorem watch_thread_iteration : forall env rest w0,
  (w_evtexit (env w0) = Some true ->
     watch_thread (env :: rest) w0 = exit true false (env w0)
     /\ exists evs, w_log (snd (watch_thread (env :: rest) w0)) = w_log (env w0) ++ evs
        /\ Forall (teardown_event false) evs)
  /\ (forall cid,
        w_evtexit (env w0) = Some false -> w_samp (env w0) = true ->
        w_clientId (env w0) = Some cid -> w_locked (env w0) = false ->
        let ping := EvNotify cid (lit "samp.app.ping") true in
        let w1 := set_log (w_log (env w0) ++ [ping]) (env w0) in
        (w_hub (env w0) (w_log (env w0) ++ [ping]) = inr (lit "OK") ->
           watch_thread (env :: rest) w0 = watch_thread rest w1)
        /\ (w_hub (env w0) (w_log (env w0) ++ [ping]) <> inr (lit "OK") ->
           watch_thread (env :: rest) w0 = exit true false w1)).
Proof.
  intros env rest w0. split.
  - intros E.
    assert (X : watch_thread (env :: rest) w0 = exit true false (env w0))
      by (unfold watch_thread, watch_loop; cbv [bind modify evtexit_wait ret]; rewrite E; reflexivity).
    split; [exact X|]. rewrite X. apply appends_exit.
  - intros cid E S C L ping w1.
    unfold watch_thread, watch_loop; fold watch_loop.
    cbv [bind modify evtexit_wait ret]. rewrite E.
    rewrite (alive_run (env w0) cid S C L). fold ping. fold w1.
    split.
    + intros OK. rewrite OK. reflexivity.
    + intros NOK. destruct (w_hub (env w0) _) as [e|r] eqn:H; [reflexivity|].
      destruct (str_eqb r (lit "OK")) eqn:R; [|reflexivity].
      apply str_eqb_eq in R. subst r. contradiction.
Qed.

(* ------------------------------------------------------------------ *)
(** ** Handshake: hub connect *)


Lemma bind_raise : forall A B (m : M A) (k : A -> M B) w e w',
  m w = (Raise e, w') -> bind m k w = (Raise e, w').
Proof. intros A B m k w e w' H. unfold bind. rewrite H. reflexivity. Qed.





(* ------------------------------------------------------------------ *)
(** ** Constructor failure handling *)

Ltac keeps_tac :=
  repeat first
    [ apply keeps_bind | apply keeps_ret | apply keeps_raise | apply keeps_get_world
    | match goal with
      | |- Keeps _ (modify _) => intros ?w; reflexivity
      | |- Keeps _ (emit _) => intros ?w; reflexivity
      | |- Keeps _ (elapse _) => intros ?w; reflexivity
      | |- Keeps _ (sleep _) => intros ?w; reflexivity
      | |- Keeps _ stuck => intros ?w; reflexivity
      | |- Keeps _ (match ?x with _ => _ end) => destruct x
      | |- forall _, Keeps _ _ => intros ?
      end ].





(* ------------------------------------------------------------------ *)
(** ** Handshake: peer discovery *)







(* ================================================================== *)
(** * Further properties of the code *)

(* ------------------------------------------------------------------ *)
(** ** Module configuration *)

(** Module configuration: without [HOME] in the environment, importing
    the module raises [KeyError('HOME')], even when [SAMP_HUB_PATH] is
    set; with [HOME], [DS9_EXE] is the environment's value or
    ['ds9v8.7'], and [SAMP_HUB_PATH] the environment's value or
    [$HOME/.samp-ds9]. *)
Theorem module_config_home : forall environ,
  (dict_get (lit "HOME") environ = None -> module_config environ = inl (KeyError (lit "HOME")))
  /\ (forall home, dict_get (lit "HOME") environ = Some home ->
        module_config environ =
        inr (match dict_get (lit "DS9_EXE") environ with Some v => v | None => lit "ds9v8.7" end,
             match dict_get (lit "SAMP_HUB_PATH") environ with
             | Some v => v
             | None => home ++ lit "/.samp-ds9"
             end)).
Proof.
  intros environ. unfold module_config. split.
  - intros H. rewrite H. reflexivity.
  - intros home H. rewrite H. reflexivity.
Qed.

(* ------------------------------------------------------------------ *)
(** ** The ds9 command line *)

(** Plain characters extend the current word. *)
Lemma lex_word_plain : forall s tok q rest,
  forallb sh_plain s = true -> lex LWord tok q (s ++ rest) = lex LWord (tok ++ s) q rest.
Proof.
  induction s as [|c s IH]; intros tok q rest P.
  - rewrite app_nil_r. reflexivity.
  - simpl in P. apply andb_prop in P as [Pc Ps].
    unfold sh_plain in Pc. apply negb_true_iff in Pc. apply orb_false_iff in Pc as [Pc Pe].
    apply orb_false_iff in Pc as [Pw Pq].
    simpl. rewrite Pw, Pq, Pe. rewrite IH by exact Ps. rewrite <- app_assoc. reflexivity.
Qed.

(** A single-quoted run without a single quote is taken as it is. *)
Lemma lex_quote_closed : forall t tok q rest,
  ~ In 39 t -> lex (LQuote 39) tok q (t ++ 39 :: rest) = lex LWord (tok ++ t) true rest.
Proof.
  induction t as [|c t IH]; intros tok q rest N.
  - rewrite app_nil_r. reflexivity.
  - simpl. assert (c <> 39) by (intros E; apply N; left; auto).
    replace (c =? 39) with false by (symmetry; apply Z.eqb_neq; auto).
    rewrite ?andb_false_r.
    rewrite IH by (intros I; apply N; right; exact I). rewrite <- app_assoc. reflexivity.
Qed.

(** A single quote that is never closed is an error. *)
Lemma lex_quote_unclosed : forall rest tok q,
  ~ In 39 rest -> lex (LQuote 39) tok q rest = inl (lit "No closing quotation").
Proof.
  induction rest as [|c rest IH]; intros tok q N; [reflexivity|].
  simpl. assert (c <> 39) by (intros E; apply N; left; auto).
  replace (c =? 39) with false by (symmetry; apply Z.eqb_neq; auto).
  rewrite ?andb_false_r.
  apply IH. intros I; apply N; right; exact I.
Qed.

(** Before a single quote, characters that are neither quotes nor
    backslashes never end the split with a result. *)
Lemma lex_reaches_quote : forall t st tok q rest msg,
  (st = LSpace \/ st = LWord) ->
  forallb (fun c => negb ((c =? 39) || (c =? 34) || (c =? 92))) t = true ->
  (forall tok' q', lex (LQuote 39) tok' q' rest = inl msg) ->
  lex st tok q (t ++ 39 :: rest) = inl msg.
Proof.
  induction t as [|c t IH]; intros st tok q rest msg S F R.
  - destruct S; subst; simpl; apply R.
  - simpl in F. apply andb_prop in F as [Fc Ft].
    apply negb_true_iff, orb_false_iff in Fc as [Fc F92]. apply orb_false_iff in Fc as [F39 F34].
    assert (Q : sh_quote c = false) by (unfold sh_quote; rewrite F39, F34; reflexivity).
    assert (E : sh_escape c = false) by exact F92.
    simpl. destruct S; subst; rewrite ?Q, ?E;
      (destruct (sh_whitespace c);
       [destruct (nonempty tok || q);
          [rewrite (IH LSpace [] false rest msg (or_introl eq_refl) Ft R); reflexivity
          | apply IH; auto]
       | apply IH; auto]).
Qed.

(** When the executable name has no blank, quote or backslash and the
    title has no single quote, the command line splits into the
    executable, the fixed options, the title as ONE argument (blanks
    included), then the split of [ds9args] (or its error). *)
Theorem ds9_argv_title : forall DS9_EXE title ds9args,
  DS9_EXE <> [] -> forallb sh_plain DS9_EXE = true -> ~ In 39 title ->
  ds9_argv DS9_EXE title ds9args =
  match shlex_split ds9args with
  | inl e => inl e
  | inr l => inr (DS9_EXE :: ds9_flags ++ title :: l)
  end.
Proof.
  intros exe title args NE P N. destruct exe as [|e0 exe]; [congruence|].
  simpl in P. apply andb_prop in P as [P0 P].
  unfold sh_plain in P0. apply negb_true_iff, orb_false_iff in P0 as [P0 E0].
  apply orb_false_iff in P0 as [W0 Q0].
  unfold ds9_argv, ds9_cmd, shlex_split. simpl lex at 1 . rewrite W0, E0, Q0.
  rewrite lex_word_plain by exact P. simpl.
  rewrite lex_quote_closed by exact N. simpl. rewrite orb_true_r.
  destruct (lex LSpace [] false args); reflexivity.
Qed.

(** A title with a single quote, followed by no further quote or
    backslash, with [ds9args] free of single quotes, makes
    [shlex.split] raise [ValueError('No closing quotation')] before
    ds9 is spawned. *)
Theorem ds9_argv_unbalanced_quote : forall DS9_EXE t1 t2 ds9args,
  DS9_EXE <> [] -> forallb sh_plain DS9_EXE = true -> ~ In 39 t1 ->
  forallb (fun c => negb ((c =? 39) || (c =? 34) || (c =? 92))) t2 = true ->
  ~ In 39 ds9args ->
  ds9_argv DS9_EXE (t1 ++ 39 :: t2) ds9args = inl (lit "No closing quotation").
Proof.
  intros exe t1 t2 args NE P N1 F2 N3. destruct exe as [|e0 exe]; [congruence|].
  simpl in P. apply andb_prop in P as [P0 P].
  unfold sh_plain in P0. apply negb_true_iff, orb_false_iff in P0 as [P0 E0].
  apply orb_false_iff in P0 as [W0 Q0].
  unfold ds9_argv, ds9_cmd, shlex_split. simpl lex at 1. rewrite W0, E0, Q0.
  rewrite lex_word_plain by exact P. simpl.
  rewrite <- app_assoc. simpl.
  rewrite lex_quote_closed by exact N1. simpl.
  rewrite lex_reaches_quote with (msg := lit "No closing quotation"); auto.
  intros tok' q'. apply lex_quote_unclosed. simpl. intros [E|I]; [discriminate|contradiction].
Qed.

(* ------------------------------------------------------------------ *)
(** ** Hub endpoint file *)

(** The hub endpoint file is [SAMP_HUB_PATH/<name>.samp] where [<name>]
    holds no [/] and only characters of the class or [_]: the file
    always lies directly in [SAMP_HUB_PATH], whatever the title. *)
Theorem samp_hub_file_layout : forall hub_path title stamp usec pid,
  exists name,
    samp_hub_file hub_path title stamp usec pid = hub_path ++ lit "/" ++ name ++ lit ".samp"
    /\ ~ In 47 name
    /\ Forall (fun c => in_class c = true \/ c = 95) name.
Proof.
  intros. exists (samp_hub_name title stamp usec pid). split; [reflexivity|].
  assert (F : Forall (fun c => in_class c = true \/ c = 95) (samp_hub_name title stamp usec pid)).
  { unfold samp_hub_name, sanitize. apply Forall_forall. intros c I.
    apply in_map_iff in I as [x [<- _]]. destruct (in_class x) eqn:E; auto. }
  split; [|exact F]. intros I. rewrite Forall_forall in F. destruct (F 47 I) as [C|C]; [|discriminate].
  discriminate C.
Qed.

(* ------------------------------------------------------------------ *)
(** ** [set], [get] and [alive] *)

(** [get] on an unlocked, connected object makes one [ds9.get] call
    under the lock to the discovered client and returns the peer's
    payload as it is, or raises the call's error; the call and its
    reply are the only events, and the lock is released either way. *)
Theorem get_reply : forall cmd timeout w cid,
  w_locked w = false -> w_samp w = true -> w_clientId w = Some cid ->
  let call := EvCall cid (lit "ds9.get") (str_of_Z timeout) cmd true in
  get cmd timeout w =
  match w_hub w (w_log w ++ [call]) with
  | inl e => (Raise e, set_log (w_log w ++ [call]) w)
  | inr r => (Ret r, set_log (w_log w ++ [call; EvReply (lit "ds9.get") cmd]) w)
  end.
Proof.
  intros cmd timeout w cid L S C. unfold get, with_lock. rewrite L.
  rewrite (ecall_and_wait_run _ _ _ (set_locked true w) cid S C). simpl.
  destruct (w_hub w _); destruct w; simpl in *; subst; rewrite <- ?app_assoc; reflexivity.
Qed.


(** [alive] never raises; it answers [False] with no effect when the
    SAMP client or client id was never assigned; otherwise it answers
    [True] exactly when the ping, issued under the lock, is answered
    with ['OK']. *)
Theorem alive_never_raises :
  NoRaise alive
  /\ (forall w, w_locked w = false -> w_samp w = false \/ w_clientId w = None ->
        alive w = (Ret false, w))
  /\ (forall w cid, w_locked w = false -> w_samp w = true -> w_clientId w = Some cid ->
        (fst (alive w) = Ret true <->
         w_hub w (w_log w ++ [EvNotify cid (lit "samp.app.ping") true]) = inr (lit "OK"))).
Proof.
  split; [|split].
  - intros w e. unfold alive, try_except_bare.
    destruct (with_lock _ w) as [[]]; simpl; congruence.
  - intros [ev lk wt pr sp ci hf fs cb ko pid now ue hub lg] L [S|C]; simpl in *; subst; [reflexivity|].
    unfold alive, try_except_bare, with_lock, enotify.
    cbv [bind samp_attr clientId_attr get_world emit modify ret raise]. simpl.
    destruct sp; reflexivity.
  - intros w cid L S C. rewrite (alive_run w cid S C L). simpl.
    destruct (w_hub w _) as [e|r]; split; intros H; try discriminate.
    + inversion H as [H']. apply str_eqb_eq in H'. subst. reflexivity.
    + inversion H. subst. reflexivity.
Qed.

(* ------------------------------------------------------------------ *)
(** ** The events of a teardown *)

Lemma effect_try_pass : forall m w, effect (try_pass m) w = effect m w.
Proof. intros m w. unfold effect, try_pass. destruct (m w) as [[]]; reflexivity. Qed.

Ltac field_tac :=
  intros;
  match goal with
  | |- _ (effect (set _ _) ?w) = _ => apply keeps_set; reflexivity
  | |- _ => unfold effect, evtexit_set, watcher_join, process_kill, hub_file_unlink,
              exit_callback_step, kill_on_exit_step, call_exit_callback; run
  end.








(** When the hub file name is assigned and the unlink succeeds, [exit]
    removes the hub file from disk and records its unlink. *)
Theorem exit_removes_hub_file : forall u m w f,
  w_locked w = false -> w_hub_file w = Some f -> w_unlink_err w = None ->
  ~ In f (w_files (snd (exit u m w))) /\ In (EvUnlink f) (w_log (snd (exit u m w))).
Proof.
  intros u m w f L H U. rewrite exit_run by exact L. cbn [fst snd]. unfold exit_steps.
  set (w3 := effect (set [lit "exit"] 10)
               (effect (if m then watcher_join else ret tt) (effect evtexit_set w))).
  assert (H3 : w_hub_file w3 = Some f /\ w_unlink_err w3 = None).
  { subst w3. rewrite <- H, <- U. split.
    - transitivity (w_hub_file (effect (if m then watcher_join else ret tt) (effect evtexit_set w)));
        [field_tac|]. transitivity (w_hub_file (effect evtexit_set w)); [destruct m; field_tac|field_tac].
    - transitivity (w_unlink_err (effect (if m then watcher_join else ret tt) (effect evtexit_set w)));
        [field_tac|]. transitivity (w_unlink_err (effect evtexit_set w)); [destruct m; field_tac|field_tac]. }
  set (w4 := effect process_kill w3).
  assert (H4 : w_hub_file w4 = Some f /\ w_unlink_err w4 = None)
    by (subst w4; destruct H3 as [A B]; rewrite <- A, <- B; split; field_tac).
  set (w5 := effect hub_file_unlink w4).
  assert (H5 : ~ In f (w_files w5) /\ In (EvUnlink f) (w_log w5)).
  { subst w5. destruct H4 as [A B]. unfold effect, hub_file_unlink. rewrite A, B.
    cbv [bind emit modify]. simpl. split.
    - rewrite filter_In. intros [_ N]. rewrite (proj2 (str_eqb_eq f f) eq_refl) in N. discriminate.
    - apply in_or_app; right; left; reflexivity. }
  assert (S6 : forall x, w_files (effect exit_callback_step x) = w_files x
                         /\ exists e, w_log (effect exit_callback_step x) = w_log x ++ e).
  { intros x. unfold effect, exit_callback_step, try_pass, call_exit_callback.
    destruct (w_callback x) as [[]|]; cbv [bind emit modify raise ret]; simpl;
      split; eauto; exists []; rewrite app_nil_r; reflexivity. }
  assert (S7 : forall x, w_files (effect kill_on_exit_step x) = w_files x
                         /\ exists e, w_log (effect kill_on_exit_step x) = w_log x ++ e).
  { intros x. unfold effect, kill_on_exit_step, try_pass.
    destruct (w_kill_on_exit x); cbv [emit modify]; simpl;
      split; eauto; exists []; rewrite app_nil_r; reflexivity. }
  destruct (S6 w5) as [F6 [e6 E6]]. destruct (S7 (effect exit_callback_step w5)) as [F7 [e7 E7]].
  destruct H5 as [N I]. simpl. rewrite F7, F6, E7, E6. split; [exact N|].
  apply in_or_app; left. apply in_or_app; left. exact I.
Qed.

(* ------------------------------------------------------------------ *)
(** ** Construction *)

(** Python truthiness in the discovery loop: a matching client whose id
    is the empty string is not taken as found; the loop checks the
    deadline and, if time remains, sleeps and polls again. *)
Theorem discover_empty_id : forall title tstart timeout retry clients meta d rest w,
  get_samp_clientId title meta clients = inr (Some []) ->
  let w1 := set_clientId (Some (Some [])) (set_now (w_now w + d) w) in
  discover_loop title tstart timeout retry ((clients, meta, d) :: rest) w =
  if timeout <? w_now w + d - tstart
  then (Raise (RuntimeError (ds9_not_found_msg timeout)), w1)
  else discover_loop title tstart timeout retry rest
         (set_now (w_now w + d + retry) (set_log (w_log w1 ++ [EvSleep retry]) w1)).
Proof.
  intros title tstart timeout retry clients meta d rest w G w1.
  simpl discover_loop. cbv [bind elapse modify get_world ret raise sleep emit]. rewrite G.
  simpl. destruct (timeout <? w_now w + d - tstart); reflexivity.
Qed.

Lemma connect_loop_keeps : forall B (proj : World -> B),
  (forall l w, proj (set_log l w) = proj w) -> (forall v w, proj (set_now v w) = proj w) ->
  forall tstart timeout retry attempts, Keeps proj (connect_loop tstart timeout retry attempts).
Proof.
  intros B proj Hl Hn tstart timeout retry attempts.
  induction attempts as [|[r d] rest IH]; simpl.
  - intros w. reflexivity.
  - keeps_tac; try exact IH; intros w; simpl; rewrite ?Hn, ?Hl; reflexivity.
Qed.

Lemma discover_loop_keeps : forall B (proj : World -> B),
  (forall l w, proj (set_log l w) = proj w) -> (forall v w, proj (set_now v w) = proj w) ->
  (forall v w, proj (set_clientId v w) = proj w) ->
  forall title tstart timeout retry passes, Keeps proj (discover_loop title tstart timeout retry passes).
Proof.
  intros B proj Hl Hn Hc title tstart timeout retry passes.
  induction passes as [|[[cl meta] d] rest IH]; simpl.
  - intros w. reflexivity.
  - keeps_tac; try exact IH; intros w; simpl; rewrite ?Hn, ?Hl, ?Hc; reflexivity.
Qed.

(** A constructor body that completes has started the watchdog thread
    when [poll_alive_time > 0] and has left the watcher untouched
    otherwise. *)
Theorem init_watcher_started : forall p sc w w',
  init_body p sc w = (Ret tt, w') ->
  w_watcher w' = if 0 <? p_poll_alive_time p then Some true else w_watcher w.
Proof.
  intros p sc w w' H. unfold init_body in H.
  cbv [bind ret raise get_world modify emit] in H.
  destruct (sc_mkdir sc); [discriminate|].
  destruct (sc_popen sc); [discriminate|].
  match type of H with context [connect_loop ?a ?b ?c ?d ?W] =>
    pose proof (connect_loop_keeps _ w_watcher (fun _ _ => eq_refl) (fun _ _ => eq_refl) a b c d W) as Kc;
    destruct (connect_loop a b c d W) as [[[]|e|] wc] eqn:Ec; [|discriminate|discriminate]
  end.
  unfold Keeps in Kc. try rewrite Ec in Kc. simpl in Kc.
  match type of H with context [discover_loop ?t ?a ?b ?c ?d ?W] =>
    pose proof (discover_loop_keeps _ w_watcher (fun _ _ => eq_refl) (fun _ _ => eq_refl)
                  (fun _ _ => eq_refl) t a b c d W) as Kd;
    destruct (discover_loop t a b c d W) as [[[]|e|] wd] eqn:Ed; [|discriminate|discriminate]
  end.
  unfold Keeps in Kd. try rewrite Ed in Kd. simpl in Kd.
  destruct (0 <? p_poll_alive_time p).
  - destruct (sc_thread sc); [discriminate|]. injection H as <-. reflexivity.
  - injection H as <-. rewrite Kd, Kc. reflexivity.
Qed.




(* ------------------------------------------------------------------ *)
(** ** Witnesses and counterexamples *)







(** [set] on the running supervisor: all commands acknowledged with the
    lock released; against a peer rejecting ["zoom 2"] the call stops at it. *)
Lemma set_in_order_witness :
  (w_locked (snd (set [lit "scale log"; lit "cmap heat"] 10 running_world)) = false /\
   ((fst (set [lit "scale log"; lit "cmap heat"] 10 running_world) = Ret tt
     /\ w_log (snd (set [lit "scale log"; lit "cmap heat"] 10 running_world))
        = w_log running_world ++ acked (Some (lit "c1")) 10 [lit "scale log"; lit "cmap heat"])
    \/ exists k e, (k < List.length [lit "scale log"; lit "cmap heat"])%nat
       /\ fst (set [lit "scale log"; lit "cmap heat"] 10 running_world) = Raise e
       /\ w_log (snd (set [lit "scale log"; lit "cmap heat"] 10 running_world))
          = w_log running_world ++ acked (Some (lit "c1")) 10 (firstn k [lit "scale log"; lit "cmap heat"])
            ++ [EvCall (Some (lit "c1")) (lit "ds9.set") (str_of_Z 10)
                  (nth k [lit "scale log"; lit "cmap heat"] []) true]))
  /\
  (w_locked (snd (set [lit "scale log"; lit "zoom 2"; lit "cmap heat"] 10 running_world_zoom)) = false /\
   ((fst (set [lit "scale log"; lit "zoom 2"; lit "cmap heat"] 10 running_world_zoom) = Ret tt
     /\ w_log (snd (set [lit "scale log"; lit "zoom 2"; lit "cmap heat"] 10 running_world_zoom))
        = w_log running_world_zoom
          ++ acked (Some (lit "c1")) 10 [lit "scale log"; lit "zoom 2"; lit "cmap heat"])
    \/ exists k e, (k < List.length [lit "scale log"; lit "zoom 2"; lit "cmap heat"])%nat
       /\ fst (set [lit "scale log"; lit "zoom 2"; lit "cmap heat"] 10 running_world_zoom) = Raise e
       /\ w_log (snd (set [lit "scale log"; lit "zoom 2"; lit "cmap heat"] 10 running_world_zoom))
          = w_log running_world_zoom
            ++ acked (Some (lit "c1")) 10 (firstn k [lit "scale log"; lit "zoom 2"; lit "cmap heat"])
            ++ [EvCall (Some (lit "c1")) (lit "ds9.set") (str_of_Z 10)
                  (nth k [lit "scale log"; lit "zoom 2"; lit "cmap heat"] []) true])).
Proof.
  split.
  - apply set_in_order; vm_compute; reflexivity.
  - apply set_in_order; vm_compute; reflexivity.
Defined.

(** The watchdog on the running supervisor: a set exit signal leads to the
    teardown at once; an answered ping leads to the next iteration. *)
Lemma watch_thread_iteration_witness :
  watch_thread [set_evtexit (Some true)] running_world
    = exit true false (set_evtexit (Some true) running_world)
  /\ watch_thread [fun w => w] running_world
    = watch_thread []
        (set_log (w_log running_world
                  ++ [EvNotify (Some (lit "c1")) (lit "samp.app.ping") true]) running_world).
Proof.
  split.
  - apply (proj1 (watch_thread_iteration (set_evtexit (Some true)) [] running_world)).
    vm_compute. reflexivity.
  - apply (proj2 (watch_thread_iteration (fun w => w) [] running_world) (Some (lit "c1")));
      vm_compute; reflexivity.
Defined.

(** Two supervisors of one process: different microseconds give different
    files; titles ["ds9-a"] and ["ds9_a"] in the same microsecond give the
    same file. *)
Lemma samp_hub_file_same_process_witness :
  samp_hub_file (lit "/tmp") (lit "ds9") (lit "20240102T030405") 42 4242
    <> samp_hub_file (lit "/tmp") (lit "ds9") (lit "20240102T030405") 43 4242
  /\ samp_hub_file (lit "/tmp") (lit "ds9-a") (lit "20240102T030405") 42 4242
    = samp_hub_file (lit "/tmp") (lit "ds9_a") (lit "20240102T030405") 42 4242.
Proof.
  split.
  - apply (proj1 samp_hub_file_same_process); lia.
  - apply (proj2 samp_hub_file_same_process). vm_compute. reflexivity.
Defined.

(** Two supervisors built in one process in the same microsecond: distinct
    titles that sanitize alike, and equal titles, share the hub file. *)
Lemma same_process_same_microsecond_collision :
  lit "ds9-a" <> lit "ds9_a"
  /\ samp_hub_file (lit "/tmp") (lit "ds9-a") (lit "20240102T030405") 42 4242
     = samp_hub_file (lit "/tmp") (lit "ds9_a") (lit "20240102T030405") 42 4242
  /\ w_hub_file (snd (DS9_init params_default script_ok fresh_world))
     = w_hub_file (snd (DS9_init params_default script_ok running_world))
  /\ w_hub_file (snd (DS9_init params_default script_ok fresh_world)) <> None.
Proof.
  split; [vm_compute; discriminate|].
  split; [vm_compute; reflexivity|].
  split; [vm_compute; reflexivity|].
  vm_compute. discriminate.
Qed.


(** An environment without [HOME], and one with [HOME] only. *)
Lemma module_config_home_witness :
  module_config [(lit "SAMP_HUB_PATH", lit "/tmp/hub")] = inl (KeyError (lit "HOME"))
  /\ module_config [(lit "HOME", lit "/home/u")] = inr (lit "ds9v8.7", lit "/home/u/.samp-ds9").
Proof.
  split.
  - apply (proj1 (module_config_home [(lit "SAMP_HUB_PATH", lit "/tmp/hub")])). reflexivity.
  - rewrite (proj2 (module_config_home [(lit "HOME", lit "/home/u")]) (lit "/home/u"))
      by reflexivity.
    reflexivity.
Defined.

(** The title [hello world] of the module's demo stays one argument. *)
Lemma ds9_argv_title_witness :
  ds9_argv (lit "ds9v8.7") (lit "hello world") (lit "-geometry 1024x768 -colorbar no")
  = inr (map lit ["ds9v8.7"; "-samp"; "client"; "yes"; "-samp"; "hub"; "yes"; "-samp"; "web";
                  "hub"; "no"; "-xpa"; "no"; "-title"; "hello world"; "-geometry"; "1024x768";
                  "-colorbar"; "no"]%string).
Proof.
  rewrite (ds9_argv_title (lit "ds9v8.7") (lit "hello world") (lit "-geometry 1024x768 -colorbar no"))
    by (discriminate || reflexivity || (simpl; lia)).
  vm_compute. reflexivity.
Defined.

(** The title [it's me] cannot be split. *)
Lemma ds9_argv_unbalanced_quote_witness :
  ds9_argv (lit "ds9v8.7") (lit "it's me") (lit "-geometry 1024x768 -colorbar no")
  = inl (lit "No closing quotation").
Proof.
  change (lit "it's me") with (lit "it" ++ 39 :: lit "s me").
  apply ds9_argv_unbalanced_quote; (discriminate || reflexivity || (simpl; lia)).
Defined.

(** The running supervisor gets the peer's reply to [version]. *)
Lemma get_reply_witness :
  fst (get (lit "version") 10 running_world) = Ret (lit "OK").
Proof.
  pose proof (get_reply (lit "version") 10 running_world (Some (lit "c1"))
                ltac:(vm_compute; reflexivity) ltac:(vm_compute; reflexivity)
                ltac:(vm_compute; reflexivity)) as G.
  cbv zeta in G. rewrite G. vm_compute. reflexivity.
Defined.


(** A fresh object is not alive; the running supervisor is. *)
Lemma alive_never_raises_witness :
  alive fresh_world = (Ret false, fresh_world)
  /\ fst (alive running_world) = Ret true.
Proof.
  destruct alive_never_raises as [_ [A B]]. split.
  - apply A; [reflexivity | left; reflexivity].
  - apply (proj2 (B running_world (Some (lit "c1")) ltac:(vm_compute; reflexivity)
                   ltac:(vm_compute; reflexivity) ltac:(vm_compute; reflexivity))).
    vm_compute. reflexivity.
Defined.



(** The running supervisor with its hub file on disk. *)
Lemma exit_removes_hub_file_witness :
  let f := samp_hub_file (lit "/home/user/.samp-ds9") (lit "ds9SAMP") (lit "20240102T030405") 42 4242 in
  ~ In f (w_files (snd (exit false true (set_files [f] running_world))))
  /\ In (EvUnlink f) (w_log (snd (exit false true (set_files [f] running_world)))).
Proof.
  intros f. apply exit_removes_hub_file; vm_compute; reflexivity.
Defined.

(** A client with the empty id and the right name, then ds9 as [c1]. *)
Lemma discover_empty_id_witness :
  discover_loop (lit "ds9SAMP") 1000 15 1
    [([[]], (fun _ => [(lit "samp.name", lit "ds9SAMP")]), 2); ([lit "c1"], meta_ds9, 0)] fresh_world
  = discover_loop (lit "ds9SAMP") 1000 15 1 [([lit "c1"], meta_ds9, 0)]
      (set_now (1000 + 2 + 1)
         (set_log (w_log (set_clientId (Some (Some [])) (set_now (1000 + 2) fresh_world)) ++ [EvSleep 1])
            (set_clientId (Some (Some [])) (set_now (1000 + 2) fresh_world)))).
Proof.
  pose proof (discover_empty_id (lit "ds9SAMP") 1000 15 1 [[]]
                (fun _ => [(lit "samp.name", lit "ds9SAMP")])
                2 [([lit "c1"], meta_ds9, 0)] fresh_world eq_refl) as D.
  cbv zeta in D. refine (eq_trans D _). reflexivity.
Defined.

(** Construction with [poll_alive_time] 5, and with 0. *)
Lemma init_watcher_started_witness :
  w_watcher (snd (init_body params_default script_ok (prelude_world params_default fresh_world)))
    = Some true
  /\ w_watcher (snd (init_body (mkParams (lit "ds9SAMP") 15 (Some None) false 0 1) script_ok
                      (prelude_world (mkParams (lit "ds9SAMP") 15 (Some None) false 0 1) fresh_world)))
    = None.
Proof.
  split.
  - refine (init_watcher_started params_default script_ok (prelude_world params_default fresh_world)
              (snd (init_body params_default script_ok (prelude_world params_default fresh_world))) _).
    vm_compute. reflexivity.
  - refine (init_watcher_started (mkParams (lit "ds9SAMP") 15 (Some None) false 0 1) script_ok
              (prelude_world (mkParams (lit "ds9SAMP") 15 (Some None) false 0 1) fresh_world)
              (snd (init_body (mkParams (lit "ds9SAMP") 15 (Some None) false 0 1) script_ok
                      (prelude_world (mkParams (lit "ds9SAMP") 15 (Some None) false 0 1) fresh_world))) _).
    vm_compute. reflexivity.
Defined.


